(** * Reference chips of the Browse2 pages: [SmallRef.tsx]

    A shallow embedding of
    [weave-js/src/components/PagePanelComponents/Home/Browse2/SmallRef.tsx]
    and the properties of its label formatter [objectRefDisplayName] and of
    the chip components [SmallArtifactRef], [SmallWeaveRef] and [SmallRef].

    Conventions of the embedding.
    - A JavaScript string is a [string]; one character of the model stands
      for one code unit of the JavaScript string.
    - An optional field or argument ([artifactRefExtra?: string],
      [versionIndex?: number]) is an [option]; JavaScript truthiness of such
      a value is written out ([truthy]).
    - A function that may [throw] returns a [Result].
    - A React component is the function from its props (and from what its
      hooks return) to the markup it renders, an [Element]. *)

From Stdlib Require Import String Ascii List ZArith Arith Bool Lia.
From Stdlib Require Import Numbers.DecimalString.
From Equations Require Import Equations.
Import ListNotations.

Open Scope list_scope.
Open Scope string_scope.

(** ** JavaScript values used by the file *)

Module JS.

(** What a call either returns or throws. *)
Inductive Exception : Type :=
| Error (message : string)
| TypeError (message : string).

Inductive Result (A : Type) : Type :=
| Returns (a : A)
| Throws (e : Exception).
Arguments Returns {A} a.
Arguments Throws {A} e.

Definition bind {A B : Type} (r : Result A) (k : A -> Result B) : Result B :=
  match r with
  | Returns a => k a
  | Throws e => Throws e
  end.

(** [ToBoolean] on [string | undefined]: [undefined] and the empty string
    are falsy, every other string is truthy. *)
Definition truthy (v : option string) : bool :=
  match v with
  | None => false
  | Some s => negb (s =? "")
  end.

(** The template-literal rendering of a number, for integral values:
    decimal digits, with a leading minus sign below zero. *)
Definition numberToString (n : Z) : string :=
  NilEmpty.string_of_int (Z.to_int n).

(** [s.slice(start, end)] for [0 <= start <= end]: the characters at
    positions [start] (included) to [end] (excluded), fewer when [s] is
    shorter. *)
Definition slice (start end_ : nat) (s : string) : string :=
  substring start (end_ - start) s.

(** [s.split(sep)] for a one-character separator: the maximal pieces of
    [s] between occurrences of [sep]; never the empty array. *)
Fixpoint split (sep : ascii) (s : string) : list string :=
  match s with
  | EmptyString => [EmptyString]
  | String c rest =>
      if Ascii.eqb c sep then EmptyString :: split sep rest
      else match split sep rest with
           | [] => [String c EmptyString]
           | piece :: pieces => String c piece :: pieces
           end
  end.

(** [parts.join(sep)]. *)
Definition join (sep : string) (parts : list string) : string :=
  String.concat sep parts.

End JS.
Import JS.

Notation "'let*' x ':=' r 'in' k" := (JS.bind r (fun x => k))
  (at level 10, x name, r at level 100, k at level 200).

(** ** Reference descriptors *)

Record WandbArtifactRef : Type := mkWandbArtifactRef {
  wa_entityName : string;
  wa_projectName : string;
  wa_artifactName : string;
  wa_artifactVersion : string;
  wa_artifactPath : string;
  wa_artifactRefExtra : option string
}.

Record WeaveObjectRef : Type := mkWeaveObjectRef {
  wo_entityName : string;
  wo_projectName : string;
  wo_weaveKind : string;
  wo_artifactName : string;
  wo_artifactVersion : string;
  wo_artifactRefExtra : option string
}.

(** Modelled from the spec: the union [ObjectRef] is declared in
    [@wandb/weave/react], which is not part of the sources at hand. The
    spec's data model describes it as a tagged union of an artifact
    reference and a weave object reference, and speaks of references of an
    unrecognized variant; the third constructor stands for those, keeping
    only the tag they carry. *)
Inductive ObjectRef : Type :=
| WandbArtifact (r : WandbArtifactRef)
| WeaveObject (r : WeaveObjectRef)
| UnrecognizedRef (scheme : string).

(** Modelled from the spec: the type guards [isWandbArtifactRef] and
    [isWeaveObjectRef] of [@wandb/weave/react]. A guard of TypeScript both
    answers and narrows; [asWandbArtifactRef] and [asWeaveObjectRef] give
    the narrowed value. *)
Definition asWandbArtifactRef (objRef : ObjectRef) : option WandbArtifactRef :=
  match objRef with
  | WandbArtifact r => Some r
  | _ => None
  end.

Definition asWeaveObjectRef (objRef : ObjectRef) : option WeaveObjectRef :=
  match objRef with
  | WeaveObject r => Some r
  | _ => None
  end.

Definition isSome {A : Type} (o : option A) : bool :=
  match o with
  | Some _ => true
  | None => false
  end.

Definition isWandbArtifactRef (objRef : ObjectRef) : bool :=
  isSome (asWandbArtifactRef objRef).

Definition isWeaveObjectRef (objRef : ObjectRef) : bool :=
  isSome (asWeaveObjectRef objRef).

(** The [scheme] of a [WeaveObjectRef] is the literal ['weave']. *)
Definition wo_scheme (_ : WeaveObjectRef) : string := "weave".

(** ** The label formatter *)

(** The loop of [objectRefDisplayName],
[[
      for (let i = 1; i < parts.length; i += 2) {
        newParts.push(parts[i]);
      }
]]
    as a function of the loop counter and of [newParts] so far. *)
Equations? pushEveryOther (parts : list string) (i : nat)
  (newParts : list string) : list string by wf (length parts - i) lt :=
  pushEveryOther parts i newParts with lt_dec i (length parts) => {
    | left _ := pushEveryOther parts (i + 2) (newParts ++ [nth i parts ""])%list;
    | right _ := newParts }.
Proof. lia. Qed.

(** The object [{label}] that [objectRefDisplayName] returns. *)
Record DisplayName : Type := mkDisplayName { label : string }.

Definition objectRefDisplayName (objRef : ObjectRef) (versionIndex : option Z)
  : Result DisplayName :=
  match asWandbArtifactRef objRef with
  | Some objRef =>
      let versionStr :=
        match versionIndex with
        | Some versionIndex => "v" ++ numberToString versionIndex
        | None => slice 0 6 (wa_artifactVersion objRef)
        end in
      let label := wa_artifactName objRef ++ ":" ++ versionStr in
      let label :=
        if negb (wa_artifactPath objRef =? "obj")
        then label ++ "/" ++ wa_artifactPath objRef
        else label in
      let label :=
        match wa_artifactRefExtra objRef with
        | Some artifactRefExtra =>
            if truthy (Some artifactRefExtra) then
              let parts := split "/" artifactRefExtra in
              let newParts := pushEveryOther parts 1 [] in
              label ++ "#" ++ join "/" newParts
            else label
        | None => label
        end in
      Returns (mkDisplayName label)
  | None =>
      match asWeaveObjectRef objRef with
      | Some objRef =>
          let versionStr :=
            match versionIndex with
            | Some versionIndex => "v" ++ numberToString versionIndex
            | None => slice 0 6 (wo_artifactVersion objRef)
            end in
          let label := wo_artifactName objRef ++ ":" ++ versionStr in
          let label :=
            match wo_artifactRefExtra objRef with
            | Some artifactRefExtra =>
                if truthy (Some artifactRefExtra)
                then label ++ "/" ++ artifactRefExtra
                else label
            | None => label
            end in
          Returns (mkDisplayName label)
      | None => Throws (Error "Unknown ref type")
      end
  end.

(** ** Rendered markup *)

#[local] Set Warnings "-register-all".

Module IconNames.
Inductive IconName : Type :=
| Loading
| Registries
| OpenNewTab
| CubeContainer
| Table
| Model
| List
| JobProgramCode.
End IconNames.
Definition IconName : Type := IconNames.IconName.

(** Props and [sx] entries, in the order the source writes them. *)
Definition Attrs : Type := list (string * string).

Fixpoint attr (key : string) (attrs : Attrs) : option string :=
  match attrs with
  | [] => None
  | (k, v) :: rest => if k =? key then Some v else attr key rest
  end.

(** What a [Link] navigates to: [as="a" href={...}] or [to={...}]. *)
Inductive LinkTarget : Type :=
| Href (href : string)
| To (to : string).

Inductive Element : Type :=
| Box (props : Attrs) (sx : Attrs) (children : list Element)
| Icon (name : IconName) (width height : Z)
| Link (variant : string) (style : Attrs) (target : LinkTarget)
    (children : list Element)
| Div (children : list Element)
| Fragment (children : list Element)
| Text (s : string).

(** Does the markup contain a hyperlink element? *)
Fixpoint containsLink (e : Element) : bool :=
  match e with
  | Box _ _ children => existsb containsLink children
  | Icon _ _ _ => false
  | Link _ _ _ _ => true
  | Div children => existsb containsLink children
  | Fragment children => existsb containsLink children
  | Text _ => false
  end.

(** Does some [Box] of the markup carry [key], as a prop or in [sx]? *)
Fixpoint hasAttr (key : string) (e : Element) : bool :=
  match e with
  | Box props sx children =>
      isSome (attr key props) || isSome (attr key sx)
      || existsb (hasAttr key) children
  | Icon _ _ _ => false
  | Link _ _ _ children => existsb (hasAttr key) children
  | Div children => existsb (hasAttr key) children
  | Fragment children => existsb (hasAttr key) children
  | Text _ => false
  end.

(** The icons of the markup, left to right. *)
Fixpoint shownIcons (e : Element) : list IconName :=
  match e with
  | Box _ _ children => flat_map shownIcons children
  | Icon name _ _ => [name]
  | Link _ _ _ children => flat_map shownIcons children
  | Div children => flat_map shownIcons children
  | Fragment children => flat_map shownIcons children
  | Text _ => []
  end.

(** The text nodes of the markup, left to right. *)
Fixpoint shownText (e : Element) : list string :=
  match e with
  | Box _ _ children => flat_map shownText children
  | Icon _ _ _ => []
  | Link _ _ _ children => flat_map shownText children
  | Div children => flat_map shownText children
  | Fragment children => flat_map shownText children
  | Text s => [s]
  end.

(** The [cursor] of the outermost element's [sx], and its [title] prop. *)
Definition cursorOf (e : Element) : option string :=
  match e with
  | Box _ sx _ => attr "cursor" sx
  | _ => None
  end.

Definition titleOf (e : Element) : option string :=
  match e with
  | Box props _ _ => attr "title" props
  | _ => None
  end.

(** Markup that offers nothing to interact with: no hyperlink, no [cursor]
    styling, no [title] tooltip. *)
Definition inert (e : Element) : bool :=
  negb (containsLink e || hasAttr "cursor" e || hasAttr "title" e).

(** ** Types of the weave core, as far as the file looks into them

    [Type] of [@wandb/weave/core] is used here as a plain string (the
    literal ['unknown']) and as an object with a [type] and, read through
    [as any], possibly a [_base_type]. *)
Inductive WeaveType : Type :=
| TypeName (name : string)
| TypeObj (type : string) (_base_type : option WeaveType).

(** [t.type], [undefined] on a string. *)
Definition typeProp (t : WeaveType) : option string :=
  match t with
  | TypeName _ => None
  | TypeObj type _ => Some type
  end.

Fixpoint getRootType (t : WeaveType) : WeaveType :=
  match t with
  | TypeObj _ (Some base) =>
      if negb (match typeProp base with
               | Some type => type =? "Object"
               | None => false
               end)
      then getRootType base
      else t
  | _ => t
  end.

Inductive WFDBTableType : Type :=
| Op
| OpVersion
| Type_
| TypeVersion
| Trace
| Call
| Object
| ObjectVersion.

(** ** What the file imports and what its hooks return *)

Record ArtifactWeaveReferenceArgs : Type := mkArtifactWeaveReferenceArgs {
  awr_entityName : string;
  awr_projectName : string;
  awr_artifactName : string
}.

Record ArtInfo : Type := mkArtInfo {
  ai_artifactType : string;
  ai_orgName : string
}.

Record ArtifactWeaveReference : Type := mkArtifactWeaveReference {
  awr_loading : bool;
  awr_artInfo : option ArtInfo
}.

Record ArtifactRefPageUrlArgs : Type := mkArtifactRefPageUrlArgs {
  url_entityName : string;
  url_projectName : string;
  url_artifactName : string;
  url_artifactVersion : string;
  url_artifactType : string;
  url_orgName : string
}.

Record ObjectVersionKey : Type := mkObjectVersionKey {
  ovk_scheme : string;
  ovk_entity : string;
  ovk_project : string;
  ovk_weaveKind : string;
  ovk_objectId : string;
  ovk_versionHash : string;
  ovk_path : string;
  ovk_refExtra : option string
}.

Record OpVersionKey : Type := mkOpVersionKey {
  opk_entity : string;
  opk_project : string;
  opk_opId : string;
  opk_versionHash : string
}.

(** Of a version record the file reads [versionIndex] only. *)
Record VersionSchema : Type := mkVersionSchema { versionIndex : Z }.

Record Loadable (A : Type) : Type := mkLoadable {
  loading : bool;
  result : option A
}.
Arguments mkLoadable {A} loading result.
Arguments loading {A} l.
Arguments result {A} l.

(** The imports whose code is not at hand, and the hooks. A hook is the
    function from its argument to what it returns in the render at hand. *)
Record Imports : Type := mkImports {
  MOON_300 : string;
  (* hexToRGB(color, alpha), alpha as the source writes it *)
  hexToRGB : string -> string -> string;
  fetchArtifactRefPageUrl : ArtifactRefPageUrlArgs -> option string;
  getTypeName : WeaveType -> string;
  refUri : ObjectRef -> string;
  useArtifactWeaveReference : ArtifactWeaveReferenceArgs -> ArtifactWeaveReference;
  (* useWFHooks() *)
  useObjectVersion : option ObjectVersionKey -> Loadable VersionSchema;
  useOpVersion : option OpVersionKey -> Loadable VersionSchema;
  useRefsType : list string -> Loadable (list WeaveType);
  (* useWeaveflowRouteContext().peekingRouter.refUIUrl *)
  refUIUrl : string -> WeaveObjectRef -> option WFDBTableType -> string
}.

(** ** The components *)

Definition SmallRefBox (env : Imports) (iconName : IconName) (text : string)
  (iconOnly : bool) : Element :=
  Box [("display", "flex"); ("alignItems", "center")] []
    (Box [("mr", "4px"); ("bgcolor", hexToRGB env (MOON_300 env) "0.48")]
       [("height", "22px"); ("width", "22px"); ("borderRadius", "16px");
        ("display", "flex"); ("flex", "0 0 22px");
        ("justifyContent", "center"); ("alignItems", "center")]
       [Icon iconName 14 14]
     :: (if negb iconOnly
         then [Box []
                 [("height", "22px"); ("flex", "1"); ("minWidth", "0");
                  ("overflow", "hidden"); ("whiteSpace", "nowrap");
                  ("textOverflow", "ellipsis")]
                 [Text text]]
         else [])).

(** [const artifactUrl = artInfo ? fetchArtifactRefPageUrl({...}) : null]. *)
Definition SmallArtifactRef_artifactUrl (env : Imports)
  (objRef : WandbArtifactRef) (artInfo : option ArtInfo) : option string :=
  match artInfo with
  | Some artInfo =>
      fetchArtifactRefPageUrl env
        {| url_entityName := wa_entityName objRef;
           url_projectName := wa_projectName objRef;
           url_artifactName := wa_artifactName objRef;
           url_artifactVersion := wa_artifactVersion objRef;
           url_artifactType := ai_artifactType artInfo;
           url_orgName := ai_orgName artInfo |}
  | None => None
  end.

(** [const Content = (<Box ...> ... </Box>)]. *)
Definition SmallArtifactRef_Content (env : Imports)
  (objRef : WandbArtifactRef) (artifactUrl : option string) : Element :=
  Box [("title",
        if truthy artifactUrl
        then wa_artifactPath objRef
        else "No link detected for this wandb artifact reference: "
             ++ wa_artifactPath objRef)]
      [("width", "100%"); ("height", "100%"); ("minHeight", "38px");
       ("display", "flex"); ("alignItems", "center");
       ("cursor", if truthy artifactUrl then "pointer" else "not-allowed")]
      [SmallRefBox env IconNames.Registries
         (wa_artifactName objRef ++ ":" ++ wa_artifactVersion objRef) false;
       if truthy artifactUrl
       then Box [] [("display", "flex"); ("alignItems", "center")]
              [Icon IconNames.OpenNewTab 14 14]
       else Fragment []].

(** [useArtifactWeaveReference({...})], the lookup of the artifact. *)
Definition SmallArtifactRef_query (env : Imports) (objRef : WandbArtifactRef)
  : ArtifactWeaveReference :=
  useArtifactWeaveReference env
    {| awr_entityName := wa_entityName objRef;
       awr_projectName := wa_projectName objRef;
       awr_artifactName :=
         wa_artifactName objRef ++ ":" ++ wa_artifactVersion objRef |}.

Definition SmallArtifactRef (env : Imports) (objRef : WandbArtifactRef)
  : Element :=
  let q := SmallArtifactRef_query env objRef in
  if awr_loading q then
    SmallRefBox env IconNames.Loading "Loading..." false
  else
    let artifactUrl := SmallArtifactRef_artifactUrl env objRef (awr_artInfo q) in
    let Content := SmallArtifactRef_Content env objRef artifactUrl in
    match artifactUrl with
    | Some href =>
        if truthy (Some href)
        then Link "secondary" [("width", "100%"); ("height", "100%")]
               (Href href) [Content]
        else Content
    | None => Content
    end.

(** [result?.versionIndex ?? result'?.versionIndex]. *)
Definition SmallWeaveRef_versionIndex (objectVersion opVersion : Loadable VersionSchema)
  : option Z :=
  match result objectVersion with
  | Some r => Some (versionIndex r)
  | None =>
      match result opVersion with
      | Some r => Some (versionIndex r)
      | None => None
      end
  end.

(** The icon chosen from [rootTypeName]. *)
Definition SmallWeaveRef_icon (rootTypeName : string) : IconName :=
  let icon := IconNames.CubeContainer in
  if rootTypeName =? "Dataset" then IconNames.Table
  else if rootTypeName =? "Model" then IconNames.Model
  else if rootTypeName =? "List" then IconNames.List
  else if rootTypeName =? "OpDef" then IconNames.JobProgramCode
  else icon.

(** [rootType], from the lookup of the type: reading [_base_type] of the
    [undefined] that [result[0]] is on an empty array throws. *)
Definition SmallWeaveRef_rootType (objRef : WeaveObjectRef)
  (refTypeQuery : Loadable (list WeaveType)) : Result WeaveType :=
  let* refType :=
    if loading refTypeQuery then Returns (TypeName "unknown")
    else match result refTypeQuery with
         | None => Returns (TypeName "unknown")
         | Some (t :: _) => Returns t
         | Some [] =>
             Throws (TypeError
               "Cannot read properties of undefined (reading '_base_type')")
         end in
  let rootType := getRootType refType in
  if (wo_scheme objRef =? "weave") && (wo_weaveKind objRef =? "op")
  then Returns (TypeObj "OpDef" None)
  else Returns rootType.

(** The keys of the two version lookups, one of them [null]. *)
Definition SmallWeaveRef_keys (objRef : WeaveObjectRef)
  : option ObjectVersionKey * option OpVersionKey :=
  if wo_weaveKind objRef =? "op" then
    (None,
     Some {| opk_entity := wo_entityName objRef;
             opk_project := wo_projectName objRef;
             opk_opId := wo_artifactName objRef;
             opk_versionHash := wo_artifactVersion objRef |})
  else
    (Some {| ovk_scheme := "weave";
             ovk_entity := wo_entityName objRef;
             ovk_project := wo_projectName objRef;
             ovk_weaveKind := wo_weaveKind objRef;
             ovk_objectId := wo_artifactName objRef;
             ovk_versionHash := wo_artifactVersion objRef;
             ovk_path := "";
             ovk_refExtra := wo_artifactRefExtra objRef |},
     None).

(** [useRefsType([refUri(objRef)])], the lookup of the type. *)
Definition SmallWeaveRef_refTypeQuery (env : Imports) (objRef : WeaveObjectRef)
  : Loadable (list WeaveType) :=
  useRefsType env [refUri env (WeaveObject objRef)].

Definition SmallWeaveRef (env : Imports) (objRef : WeaveObjectRef)
  (wfTable : option WFDBTableType) (iconOnly : bool) : Result Element :=
  let '(objVersionKey, opVersionKey) := SmallWeaveRef_keys objRef in
  let objectVersion := useObjectVersion env objVersionKey in
  let opVersion := useOpVersion env opVersionKey in
  let versionIndex := SmallWeaveRef_versionIndex objectVersion opVersion in
  let refTypeQuery := SmallWeaveRef_refTypeQuery env objRef in
  let* rootType := SmallWeaveRef_rootType objRef refTypeQuery in
  let* displayName := objectRefDisplayName (WeaveObject objRef) versionIndex in
  let rootTypeName := getTypeName env rootType in
  let icon := SmallWeaveRef_icon rootTypeName in
  let Item := SmallRefBox env icon (label displayName) iconOnly in
  if loading refTypeQuery then Returns Item
  else Returns
         (Link "secondary" [("width", "100%")]
            (To (refUIUrl env rootTypeName objRef wfTable)) [Item]).

Definition SmallRef (env : Imports) (objRef : ObjectRef)
  (wfTable : option WFDBTableType) (iconOnly : bool) : Result Element :=
  match asWandbArtifactRef objRef, asWeaveObjectRef objRef with
  | None, None => Returns (Div [Text "[Error: non wandb ref]"])
  | Some objRef, _ => Returns (SmallArtifactRef env objRef)
  | None, Some objRef => SmallWeaveRef env objRef wfTable iconOnly
  end.

(** ** Vocabulary of the properties *)

(** The elements at the odd positions 1, 3, 5, ... of a list. *)
Fixpoint oddIndexed {A : Type} (l : list A) : list A :=
  match l with
  | _ :: x :: rest => x :: oddIndexed rest
  | _ => []
  end.

(** The first [n] characters of a string, all of it when it is shorter. *)
Fixpoint firstChars (n : nat) (s : string) : string :=
  match n, s with
  | S n', String c rest => String c (firstChars n' rest)
  | _, _ => EmptyString
  end.

(** Does the character occur in the string? *)
Fixpoint occurs (c : ascii) (s : string) : bool :=
  match s with
  | EmptyString => false
  | String c' rest => Ascii.eqb c' c || occurs c rest
  end.

Definition refName (objRef : ObjectRef) : string :=
  match objRef with
  | WandbArtifact r => wa_artifactName r
  | WeaveObject r => wo_artifactName r
  | UnrecognizedRef _ => ""
  end.

Definition refExtra (objRef : ObjectRef) : option string :=
  match objRef with
  | WandbArtifact r => wa_artifactRefExtra r
  | WeaveObject r => wo_artifactRefExtra r
  | UnrecognizedRef _ => None
  end.

Definition withVersion (version : string) (objRef : ObjectRef) : ObjectRef :=
  match objRef with
  | WandbArtifact r =>
      WandbArtifact
        {| wa_entityName := wa_entityName r;
           wa_projectName := wa_projectName r;
           wa_artifactName := wa_artifactName r;
           wa_artifactVersion := version;
           wa_artifactPath := wa_artifactPath r;
           wa_artifactRefExtra := wa_artifactRefExtra r |}
  | WeaveObject r =>
      WeaveObject
        {| wo_entityName := wo_entityName r;
           wo_projectName := wo_projectName r;
           wo_weaveKind := wo_weaveKind r;
           wo_artifactName := wo_artifactName r;
           wo_artifactVersion := version;
           wo_artifactRefExtra := wo_artifactRefExtra r |}
  | UnrecognizedRef scheme => UnrecognizedRef scheme
  end.

Definition withExtra (extra : option string) (objRef : ObjectRef) : ObjectRef :=
  match objRef with
  | WandbArtifact r =>
      WandbArtifact
        {| wa_entityName := wa_entityName r;
           wa_projectName := wa_projectName r;
           wa_artifactName := wa_artifactName r;
           wa_artifactVersion := wa_artifactVersion r;
           wa_artifactPath := wa_artifactPath r;
           wa_artifactRefExtra := extra |}
  | WeaveObject r =>
      WeaveObject
        {| wo_entityName := wo_entityName r;
           wo_projectName := wo_projectName r;
           wo_weaveKind := wo_weaveKind r;
           wo_artifactName := wo_artifactName r;
           wo_artifactVersion := wo_artifactVersion r;
           wo_artifactRefExtra := extra |}
  | UnrecognizedRef scheme => UnrecognizedRef scheme
  end.

(** The label of a call that returns, the empty string of one that throws. *)
Definition labelOf (objRef : ObjectRef) (versionIndex : option Z) : string :=
  match objectRefDisplayName objRef versionIndex with
  | Returns displayName => label displayName
  | Throws _ => ""
  end.

Definition refVersion (objRef : ObjectRef) : string :=
  match objRef with
  | WandbArtifact r => wa_artifactVersion r
  | WeaveObject r => wo_artifactVersion r
  | UnrecognizedRef _ => ""
  end.

(** The version as a label shows it: the index when there is one, the
    first six characters of the version string otherwise. *)
Definition versionPart (version : string) (versionIndex : option Z) : string :=
  match versionIndex with
  | Some i => "v" ++ numberToString i
  | None => firstChars 6 version
  end.

(** What a non-empty extra path adds to a label, by variant: the odd
    segments after a hash sign for an artifact reference, the whole of it
    after a slash for a weave object reference. *)
Definition extraSuffix (objRef : ObjectRef) (extra : string) : string :=
  match objRef with
  | WandbArtifact _ => "#" ++ join "/" (oddIndexed (split "/" extra))
  | _ => "/" ++ extra
  end.

(** The part of a label that comes from the extra path: nothing when there
    is none or when it is empty. *)
Definition extraPart (objRef : ObjectRef) : string :=
  match refExtra objRef with
  | None => ""
  | Some "" => ""
  | Some extra => extraSuffix objRef extra
  end.

(** The part of a label that comes from the path of an artifact. *)
Definition pathPart (objRef : ObjectRef) : string :=
  match objRef with
  | WandbArtifact r =>
      if string_dec (wa_artifactPath r) "obj" then ""
      else "/" ++ wa_artifactPath r
  | _ => ""
  end.

(** What follows the version in a label. *)
Definition labelSuffix (objRef : ObjectRef) : string :=
  pathPart objRef ++ extraPart objRef.

(** ** Sample references and environments *)

Definition modelArtifact : WandbArtifactRef :=
  mkWandbArtifactRef "acme" "demo" "model" "abcdef1234" "obj" None.

Definition modelObject : WeaveObjectRef :=
  mkWeaveObjectRef "acme" "demo" "object" "model" "abcdef1234" None.

(** Every lookup is still pending. *)
Definition pendingEnv : Imports :=
  {| MOON_300 := "#DADEE3";
     hexToRGB := fun color alpha => "rgba(" ++ color ++ ", " ++ alpha ++ ")";
     fetchArtifactRefPageUrl := fun _ => None;
     getTypeName := fun t => match t with TypeName n => n | TypeObj n _ => n end;
     refUri := fun objRef => "weave:///" ++ refName objRef;
     useArtifactWeaveReference := fun _ => mkArtifactWeaveReference true None;
     useObjectVersion := fun _ => mkLoadable true None;
     useOpVersion := fun _ => mkLoadable true None;
     useRefsType := fun _ => mkLoadable true None;
     refUIUrl := fun name r _ => "/" ++ name ++ "/" ++ wo_artifactName r |}.

(** Every lookup has answered: the artifact is unknown to the server, the
    object is version 3 of a [Dataset]. *)
Definition settledEnv : Imports :=
  {| MOON_300 := "#DADEE3";
     hexToRGB := fun color alpha => "rgba(" ++ color ++ ", " ++ alpha ++ ")";
     fetchArtifactRefPageUrl := fun _ => None;
     getTypeName := fun t => match t with TypeName n => n | TypeObj n _ => n end;
     refUri := fun objRef => "weave:///" ++ refName objRef;
     useArtifactWeaveReference := fun _ => mkArtifactWeaveReference false None;
     useObjectVersion :=
       fun key =>
         mkLoadable false
           (match key with Some _ => Some (mkVersionSchema 3) | None => None end);
     useOpVersion := fun _ => mkLoadable false None;
     useRefsType :=
       fun _ =>
         mkLoadable false
           (Some [TypeObj "Dataset" (Some (TypeObj "Object" None))]);
     refUIUrl := fun name r _ => "/" ++ name ++ "/" ++ wo_artifactName r |}.

(** ** Vocabulary of the further properties *)

(** A type, its base type, the base type of that, and so on. *)
Fixpoint baseChain (t : WeaveType) : list WeaveType :=
  t :: match t with
       | TypeObj _ (Some base) => baseChain base
       | TypeObj _ None => []
       | TypeName _ => []
       end.

(** A type without base type, or whose base type is an object named
    [Object]. *)
Definition isRootType (t : WeaveType) : bool :=
  match t with
  | TypeObj _ (Some base) =>
      match typeProp base with
      | Some type => type =? "Object"
      | None => false
      end
  | TypeObj _ None => true
  | TypeName _ => true
  end.

(** What the hyperlinks of the markup lead to, outermost first. *)
Fixpoint linkTargets (e : Element) : list LinkTarget :=
  match e with
  | Box _ _ children => flat_map linkTargets children
  | Icon _ _ _ => []
  | Link _ _ target children => target :: flat_map linkTargets children
  | Div children => flat_map linkTargets children
  | Fragment children => flat_map linkTargets children
  | Text _ => []
  end.

(** The two version lookups of the weave chip, as it calls them. *)
Definition objectVersionOf (env : Imports) (objRef : WeaveObjectRef)
  : Loadable VersionSchema :=
  useObjectVersion env (fst (SmallWeaveRef_keys objRef)).

Definition opVersionOf (env : Imports) (objRef : WeaveObjectRef)
  : Loadable VersionSchema :=
  useOpVersion env (snd (SmallWeaveRef_keys objRef)).

Definition predictOp : WeaveObjectRef :=
  mkWeaveObjectRef "acme" "demo" "op" "predict" "0123456789" None.

(** Every lookup has answered: the artifact has a page, the operation is
    version 7, the type of the reference is a [Model] two levels up. *)
Definition linkedEnv : Imports :=
  {| MOON_300 := "#DADEE3";
     hexToRGB := fun color alpha => "rgba(" ++ color ++ ", " ++ alpha ++ ")";
     fetchArtifactRefPageUrl :=
       fun a =>
         Some ("https://wandb.ai/" ++ url_entityName a ++ "/"
               ++ url_projectName a ++ "/artifacts/" ++ url_artifactType a
               ++ "/" ++ url_artifactName a ++ "/"
               ++ url_artifactVersion a);
     getTypeName := fun t => match t with TypeName n => n | TypeObj n _ => n end;
     refUri := fun objRef => "weave:///" ++ refName objRef;
     useArtifactWeaveReference :=
       fun _ => mkArtifactWeaveReference false (Some (mkArtInfo "model" "acme-org"));
     useObjectVersion := fun _ => mkLoadable false None;
     useOpVersion :=
       fun key =>
         mkLoadable false
           (match key with Some _ => Some (mkVersionSchema 7) | None => None end);
     useRefsType :=
       fun _ =>
         mkLoadable false
           (Some [TypeObj "MyModel"
                    (Some (TypeObj "Model" (Some (TypeObj "Object" None))))]);
     refUIUrl := fun name r _ => "/" ++ name ++ "/" ++ wo_artifactName r |}.

(** The lookup of the type has answered with an empty array. *)
Definition emptyAnswerEnv : Imports :=
  {| MOON_300 := "#DADEE3";
     hexToRGB := fun color alpha => "rgba(" ++ color ++ ", " ++ alpha ++ ")";
     fetchArtifactRefPageUrl := fun _ => None;
     getTypeName := fun t => match t with TypeName n => n | TypeObj n _ => n end;
     refUri := fun objRef => "weave:///" ++ refName objRef;
     useArtifactWeaveReference := fun _ => mkArtifactWeaveReference false None;
     useObjectVersion := fun _ => mkLoadable false None;
     useOpVersion := fun _ => mkLoadable false None;
     useRefsType := fun _ => mkLoadable false (Some []);
     refUIUrl := fun name r _ => "/" ++ name ++ "/" ++ wo_artifactName r |}.

(** * Properties *)

(** ** The loop keeps the odd positions *)

Section OddPositions.

Context {A : Type}.

Lemma oddIndexed_short (l : list A) : length l <= 1 -> oddIndexed l = [].
Proof.
  destruct l as [|x [|y l]]; simpl; intros H; try reflexivity; lia.
Qed.

(** Position [k] of [oddIndexed l] is position [2k+1] of [l]. *)
Lemma oddIndexed_nth_error (k : nat) :
  forall l : list A, nth_error (oddIndexed l) k = nth_error l (2 * k + 1).
Proof.
  induction k as [|k IH]; intros [|x [|y l]]; simpl; try reflexivity.
  - destruct k; reflexivity.
  - rewrite IH. replace (k + S (k + 0) + 1) with (S (2 * k + 1)) by lia.
    reflexivity.
Qed.

Lemma oddIndexed_length (l : list A) : length (oddIndexed l) = length l / 2.
Proof.
  assert (H : forall n (l : list A), length l <= n ->
              length (oddIndexed l) = length l / 2).
  { induction n as [|n IH]; intros [|x [|y l']]; cbn [oddIndexed length];
      intros Hn; try reflexivity; try lia.
    rewrite IH by lia.
    replace (S (S (length l'))) with (length l' + 1 * 2) by lia.
    rewrite Nat.div_add by lia. lia. }
  apply (H (length l)). lia.
Qed.

Lemma skipn_two_steps (d : A) (k : nat) :
  forall l : list A,
    S k < length l ->
    skipn k l = nth k l d :: nth (S k) l d :: skipn (S (S k)) l.
Proof.
  induction k as [|k IH]; intros [|x [|y l]]; simpl; intros H;
    try lia; try reflexivity.
  apply (IH (y :: l)). simpl. lia.
Qed.

End OddPositions.

Lemma pushEveryOther_oddIndexed (parts : list string) (i : nat)
  (newParts : list string) :
  1 <= i ->
  pushEveryOther parts i newParts
  = (newParts ++ oddIndexed (skipn (i - 1) parts))%list.
Proof.
  funelim (pushEveryOther parts i newParts); intros Hi.
  - match goal with
    | IH : 1 <= _ -> pushEveryOther _ _ _ = (_ ++ oddIndexed _)%list |- _ =>
        rewrite IH by lia
    end.
    rewrite (skipn_two_steps "" (i - 1) parts)
      by (replace (S (i - 1)) with i by lia; assumption).
    replace (S (i - 1)) with i by lia.
    replace (i + 2 - 1) with (S i) by lia.
    simpl. rewrite <- app_assoc. reflexivity.
  - rewrite oddIndexed_short, app_nil_r; [reflexivity|].
    rewrite length_skipn. lia.
Qed.

(** The loop as the source starts it: counter 1, nothing pushed yet. *)
Lemma pushEveryOther_from_1 (parts : list string) :
  pushEveryOther parts 1 [] = oddIndexed parts.
Proof.
  rewrite pushEveryOther_oddIndexed by lia. reflexivity.
Qed.

(** ** Strings *)

Lemma slice_firstChars (n : nat) (s : string) : slice 0 n s = firstChars n s.
Proof.
  unfold slice. rewrite Nat.sub_0_r. revert s.
  induction n as [|n IH]; intros [|c s]; simpl; try reflexivity.
  rewrite IH. reflexivity.
Qed.

Lemma firstChars_prefix (n : nat) :
  forall s, prefix (firstChars n s) s = true.
Proof.
  induction n as [|n IH]; intros [|c s]; simpl; try reflexivity.
  destruct (ascii_dec c c) as [_|Hc]; [apply IH | congruence].
Qed.

Lemma firstChars_length (n : nat) :
  forall s, String.length (firstChars n s) = Nat.min n (String.length s).
Proof.
  induction n as [|n IH]; intros [|c s]; simpl; try reflexivity.
  rewrite IH. reflexivity.
Qed.

Lemma split_not_nil (sep : ascii) (s : string) : split sep s <> [].
Proof.
  destruct s as [|c s]; simpl; [discriminate|].
  destruct (Ascii.eqb c sep); [discriminate|].
  destruct (split sep s); discriminate.
Qed.

(** Joining the pieces of a split with the separator gives the string back. *)
Lemma join_split (sep : ascii) (s : string) :
  join (String sep "") (split sep s) = s.
Proof.
  induction s as [|c s IH]; [reflexivity|].
  simpl. destruct (Ascii.eqb_spec c sep) as [->|Hne].
  - unfold join in *. simpl.
    destruct (split sep s) eqn:E; [destruct (split_not_nil _ _ E)|].
    rewrite IH. reflexivity.
  - unfold join in *.
    destruct (split sep s) as [|piece pieces] eqn:E;
      [destruct (split_not_nil _ _ E)|].
    simpl in *. destruct pieces; rewrite <- IH; reflexivity.
Qed.

Lemma split_no_sep (sep : ascii) (s : string) :
  occurs sep s = false -> split sep s = [s].
Proof.
  induction s as [|c s IH]; simpl; [reflexivity|].
  intros H. apply orb_false_iff in H as [Hc Hs].
  rewrite Hc, (IH Hs). reflexivity.
Qed.

Lemma split_app_sep (sep : ascii) (s t : string) :
  occurs sep s = false ->
  split sep (s ++ String sep t) = s :: split sep t.
Proof.
  induction s as [|c s IH]; simpl.
  - intros _. rewrite Ascii.eqb_refl. reflexivity.
  - intros H. apply orb_false_iff in H as [Hc Hs].
    rewrite Hc, (IH Hs). reflexivity.
Qed.

Lemma join_cons2 (sep s s' : string) (l : list string) :
  join sep (s :: s' :: l) = s ++ sep ++ join sep (s' :: l).
Proof. reflexivity. Qed.

(** Splitting the join of segments that are free of the separator gives the
    segments back. *)
Lemma split_join (sep : ascii) (segments : list string) :
  segments <> [] ->
  forallb (fun s => negb (occurs sep s)) segments = true ->
  split sep (join (String sep "") segments) = segments.
Proof.
  induction segments as [|s segments IH]; [congruence|].
  intros _ H. simpl in H. apply andb_true_iff in H as [Hs Hrest].
  apply negb_true_iff in Hs.
  destruct segments as [|s' segments].
  - simpl. apply split_no_sep, Hs.
  - rewrite join_cons2. change (String sep "" ++ ?x) with (String sep x).
    rewrite split_app_sep by assumption.
    rewrite IH; [reflexivity | discriminate | assumption].
Qed.

Lemma append_assoc3 (a b c : string) : (a ++ b) ++ c = a ++ b ++ c.
Proof. induction a as [|x a IH]; simpl; [reflexivity | rewrite IH; reflexivity]. Qed.

Lemma append_empty_r (a : string) : a ++ "" = a.
Proof. induction a as [|x a IH]; simpl; [reflexivity | rewrite IH; reflexivity]. Qed.

Lemma truthy_some (s : string) : truthy (Some s) = true <-> s <> "".
Proof.
  unfold truthy. destruct (String.eqb_spec s ""); simpl; split;
    congruence.
Qed.

(** ** The label formatter, part by part *)

Ltac unfold_label :=
  unfold objectRefDisplayName, labelSuffix, pathPart, extraPart, versionPart,
    extraSuffix, refName, refVersion, refExtra, asWandbArtifactRef,
    asWeaveObjectRef, truthy;
  cbn [wa_artifactName wa_artifactVersion wa_artifactPath wa_artifactRefExtra
       wo_artifactName wo_artifactVersion wo_artifactRefExtra].

(** Both recognized variants: the name, a colon, the version, then the
    suffix. *)
Lemma objectRefDisplayName_recognized (objRef : ObjectRef)
  (versionIndex : option Z) :
  isWandbArtifactRef objRef || isWeaveObjectRef objRef = true ->
  objectRefDisplayName objRef versionIndex
  = Returns
      {| label :=
           refName objRef ++ ":"
           ++ versionPart (refVersion objRef) versionIndex
           ++ labelSuffix objRef |}.
Proof.
  destruct objRef as [[en pn name ver path extra] | [en pn kind name ver extra] | scheme];
    intros H; [| |discriminate]; unfold_label; rewrite (slice_firstChars 6).
  - destruct (string_dec path "obj") as [E|E];
      [apply String.eqb_eq in E | apply String.eqb_neq in E]; rewrite E;
      cbn [negb]; destruct extra as [[|c e]|]; cbn [String.eqb negb];
      rewrite ?pushEveryOther_from_1, ?append_assoc3, ?append_empty_r;
      try reflexivity.
  - destruct extra as [[|c e]|]; cbn [String.eqb negb];
      rewrite ?append_assoc3, ?append_empty_r; reflexivity.
Qed.

Lemma recognized_withVersion (hash : string) (objRef : ObjectRef) :
  isWandbArtifactRef (withVersion hash objRef)
  || isWeaveObjectRef (withVersion hash objRef)
  = isWandbArtifactRef objRef || isWeaveObjectRef objRef.
Proof. destruct objRef; reflexivity. Qed.

Lemma labelSuffix_withVersion (hash : string) (objRef : ObjectRef) :
  labelSuffix (withVersion hash objRef) = labelSuffix objRef.
Proof. destruct objRef; reflexivity. Qed.

Lemma refName_withVersion (hash : string) (objRef : ObjectRef) :
  refName (withVersion hash objRef) = refName objRef.
Proof. destruct objRef; reflexivity. Qed.

Lemma refVersion_withVersion (hash : string) (objRef : ObjectRef) :
  isWandbArtifactRef objRef || isWeaveObjectRef objRef = true ->
  refVersion (withVersion hash objRef) = hash.
Proof. destruct objRef; [reflexivity | reflexivity | discriminate]. Qed.

(** C1, as amended: when the extra path of a reference is present and not
    empty, the label is the label of the same reference without extra path
    followed, for an artifact reference, by a hash sign and the odd-indexed
    segments of the extra path joined by slashes, and, for a weave object
    reference, by a slash and the whole extra path. *)
Theorem extra_path_in_label (objRef : ObjectRef) (versionIndex : option Z)
  (extra : string) :
  refExtra objRef = Some extra ->
  extra <> "" ->
  objectRefDisplayName objRef versionIndex
  = Returns
      {| label :=
           labelOf (withExtra None objRef) versionIndex
           ++ match objRef with
              | WandbArtifact _ =>
                  "#" ++ join "/" (oddIndexed (split "/" extra))
              | _ => "/" ++ extra
              end |}.
Proof.
  intros Hextra Hne.
  assert (Hrec : isWandbArtifactRef objRef || isWeaveObjectRef objRef = true)
    by (destruct objRef; [reflexivity | reflexivity | discriminate]).
  assert (Hrec' : isWandbArtifactRef (withExtra None objRef)
                  || isWeaveObjectRef (withExtra None objRef) = true)
    by (destruct objRef; [reflexivity | reflexivity | discriminate]).
  unfold labelOf.
  rewrite (objectRefDisplayName_recognized _ _ Hrec),
    (objectRefDisplayName_recognized _ _ Hrec').
  cbn [label]. unfold labelSuffix.
  replace (refName (withExtra None objRef)) with (refName objRef)
    by (destruct objRef; reflexivity).
  replace (refVersion (withExtra None objRef)) with (refVersion objRef)
    by (destruct objRef; reflexivity).
  replace (pathPart (withExtra None objRef)) with (pathPart objRef)
    by (destruct objRef; reflexivity).
  replace (extraPart (withExtra None objRef)) with ""
    by (destruct objRef; reflexivity).
  rewrite append_empty_r, !append_assoc3. simpl.
  do 6 f_equal.
  unfold extraPart. rewrite Hextra.
  destruct extra as [|c e]; [congruence|].
  destruct objRef; reflexivity.
Qed.

(** In terms of segments: an extra path made of slash-free segments adds
    the odd-indexed ones to the label of an artifact reference. *)
Lemma extraSuffix_segments (r : WandbArtifactRef) (segments : list string) :
  segments <> [] ->
  forallb (fun s => negb (occurs "/" s)) segments = true ->
  extraSuffix (WandbArtifact r) (join "/" segments)
  = "#" ++ join "/" (oddIndexed segments).
Proof.
  intros Hne Hfree. unfold extraSuffix.
  rewrite (split_join "/" segments Hne Hfree). reflexivity.
Qed.

(** The claim as first stated fails on a weave object reference: its extra
    path is shown whole, after a slash. *)
Lemma extra_path_weave_object_counterexample :
  objectRefDisplayName
    (WeaveObject
       (mkWeaveObjectRef "acme" "demo" "object" "model" "abcdef1234"
          (Some "a/b/c/d")))
    None
  = Returns {| label := "model:abcdef/a/b/c/d" |}
  /\ objectRefDisplayName
       (WeaveObject
          (mkWeaveObjectRef "acme" "demo" "object" "model" "abcdef1234"
             (Some "a/b/c/d")))
       None
     <> Returns {| label := "model:abcdef" ++ "#b/d" |}.
Proof. split; [reflexivity | discriminate]. Qed.

Lemma extra_path_in_label_witness :
  objectRefDisplayName
    (WandbArtifact
       (mkWandbArtifactRef "acme" "demo" "model" "abcdef1234" "obj"
          (Some "a/b/c/d")))
    None
  = Returns {| label := "model:abcdef" ++ "#b/d" |}
  /\ objectRefDisplayName
       (WeaveObject
          (mkWeaveObjectRef "acme" "demo" "object" "model" "abcdef1234"
             (Some "a/b/c/d")))
       (Some 3%Z)
     = Returns {| label := "model:v3" ++ "/a/b/c/d" |}.
Proof.
  split.
  - apply (extra_path_in_label
             (WandbArtifact
                (mkWandbArtifactRef "acme" "demo" "model" "abcdef1234" "obj"
                   (Some "a/b/c/d")))
             None "a/b/c/d"); [reflexivity | discriminate].
  - apply (extra_path_in_label
             (WeaveObject
                (mkWeaveObjectRef "acme" "demo" "object" "model" "abcdef1234"
                   (Some "a/b/c/d")))
             (Some 3%Z) "a/b/c/d"); [reflexivity | discriminate].
Defined.

(** C2: with a version index, the label of a reference of either recognized
    variant shows the version as [v] followed by the index, whatever the
    version string of the reference is. *)
Theorem version_index_in_label (objRef : ObjectRef) (i : Z) (hash : string) :
  isWandbArtifactRef objRef || isWeaveObjectRef objRef = true ->
  objectRefDisplayName (withVersion hash objRef) (Some i)
  = Returns
      {| label :=
           refName objRef ++ ":" ++ ("v" ++ numberToString i)
           ++ labelSuffix objRef |}.
Proof.
  intros Hrec.
  rewrite objectRefDisplayName_recognized
    by (rewrite recognized_withVersion; exact Hrec).
  rewrite refName_withVersion, labelSuffix_withVersion. reflexivity.
Qed.

Lemma version_index_in_label_witness :
  objectRefDisplayName (WandbArtifact modelArtifact) (Some 3%Z)
  = Returns {| label := "model:v3" |}
  /\ objectRefDisplayName (WeaveObject modelObject) (Some 0%Z)
     = Returns {| label := "model:v0" |}.
Proof.
  split.
  - apply (version_index_in_label (WandbArtifact modelArtifact) 3
             "abcdef1234"). reflexivity.
  - apply (version_index_in_label (WeaveObject modelObject) 0
             "abcdef1234"). reflexivity.
Defined.

(** C3: without a version index, the label of a reference of either
    recognized variant shows the first six characters of the version
    string as the version; the artifact [model], version [abcdef1234], path
    [obj], no extra path, has the label [model:abcdef]. *)
Theorem hash_prefix_in_label (objRef : ObjectRef) (hash : string) :
  isWandbArtifactRef objRef || isWeaveObjectRef objRef = true ->
  objectRefDisplayName (withVersion hash objRef) None
  = Returns
      {| label :=
           refName objRef ++ ":" ++ firstChars 6 hash ++ labelSuffix objRef |}.
Proof.
  intros Hrec.
  rewrite objectRefDisplayName_recognized
    by (rewrite recognized_withVersion; exact Hrec).
  rewrite refName_withVersion, labelSuffix_withVersion,
    (refVersion_withVersion _ _ Hrec).
  reflexivity.
Qed.

Lemma hash_prefix_in_label_witness :
  objectRefDisplayName
    (WandbArtifact
       (mkWandbArtifactRef "acme" "demo" "model" "abcdef1234" "obj" None))
    None
  = Returns {| label := "model:abcdef" |}.
Proof.
  apply (hash_prefix_in_label (WandbArtifact modelArtifact) "abcdef1234").
  reflexivity.
Defined.

(** C4: the label of an artifact reference has a slash and the artifact
    path after the version exactly when the path is not [obj]; with the
    path [obj] nothing stands between the version and the extra part. *)
Theorem artifact_path_in_label (r : WandbArtifactRef)
  (versionIndex : option Z) :
  (wa_artifactPath r <> "obj" ->
   objectRefDisplayName (WandbArtifact r) versionIndex
   = Returns
       {| label :=
            wa_artifactName r ++ ":"
            ++ versionPart (wa_artifactVersion r) versionIndex
            ++ ("/" ++ wa_artifactPath r)
            ++ extraPart (WandbArtifact r) |})
  /\ (wa_artifactPath r = "obj" ->
      objectRefDisplayName (WandbArtifact r) versionIndex
      = Returns
          {| label :=
               wa_artifactName r ++ ":"
               ++ versionPart (wa_artifactVersion r) versionIndex
               ++ extraPart (WandbArtifact r) |}).
Proof.
  split; intros Hpath;
    rewrite objectRefDisplayName_recognized by reflexivity;
    unfold labelSuffix, pathPart; cbn [refName refVersion];
    destruct (string_dec (wa_artifactPath r) "obj") as [E|E];
    try congruence; reflexivity.
Qed.

Lemma artifact_path_in_label_witness :
  objectRefDisplayName
    (WandbArtifact
       (mkWandbArtifactRef "acme" "demo" "model" "abcdef1234" "weights/best"
          None))
    None
  = Returns {| label := "model:abcdef/weights/best" |}
  /\ objectRefDisplayName (WandbArtifact modelArtifact) None
     = Returns {| label := "model:abcdef" |}.
Proof.
  split.
  - apply (proj1 (artifact_path_in_label
                    (mkWandbArtifactRef "acme" "demo" "model" "abcdef1234"
                       "weights/best" None)
                    None)).
    discriminate.
  - apply (proj2 (artifact_path_in_label modelArtifact None)). reflexivity.
Defined.

(** C5: on a reference that is neither an artifact reference nor a weave
    object reference the formatter throws; it returns no label. *)
Theorem unknown_ref_throws (objRef : ObjectRef) (versionIndex : option Z) :
  isWandbArtifactRef objRef = false ->
  isWeaveObjectRef objRef = false ->
  objectRefDisplayName objRef versionIndex = Throws (Error "Unknown ref type")
  /\ forall displayName,
       objectRefDisplayName objRef versionIndex <> Returns displayName.
Proof.
  destruct objRef as [r | r | scheme]; cbn; intros Ha Hw; try discriminate.
  split; [reflexivity | discriminate].
Qed.

Lemma unknown_ref_throws_witness :
  objectRefDisplayName (UnrecognizedRef "local-artifact") (Some 2%Z)
  = Throws (Error "Unknown ref type")
  /\ forall displayName,
       objectRefDisplayName (UnrecognizedRef "local-artifact") (Some 2%Z)
       <> Returns displayName.
Proof.
  apply (unknown_ref_throws (UnrecognizedRef "local-artifact") (Some 2%Z));
    reflexivity.
Defined.


(** ** The chips *)

Section Chips.

Variable env : Imports.

Lemma SmallRefBox_inert (iconName : IconName) (text : string) (iconOnly : bool) :
  inert (SmallRefBox env iconName text iconOnly) = true.
Proof. destruct iconOnly; reflexivity. Qed.

Lemma SmallRefBox_icons (iconName : IconName) (text : string) (iconOnly : bool) :
  shownIcons (SmallRefBox env iconName text iconOnly) = [iconName].
Proof. destruct iconOnly; reflexivity. Qed.

Lemma SmallRefBox_text (iconName : IconName) (text : string) (iconOnly : bool) :
  shownText (SmallRefBox env iconName text iconOnly)
  = if iconOnly then [] else [text].
Proof. destruct iconOnly; reflexivity. Qed.

(** The artifact chip after loading, by what the lookup of the page gave. *)
Lemma SmallArtifactRef_settled (objRef : WandbArtifactRef) :
  awr_loading (SmallArtifactRef_query env objRef) = false ->
  SmallArtifactRef env objRef
  = match SmallArtifactRef_artifactUrl env objRef
            (awr_artInfo (SmallArtifactRef_query env objRef)) with
    | Some href =>
        if negb (href =? "")
        then Link "secondary" [("width", "100%"); ("height", "100%")]
               (Href href)
               [SmallArtifactRef_Content env objRef (Some href)]
        else SmallArtifactRef_Content env objRef (Some href)
    | None => SmallArtifactRef_Content env objRef None
    end.
Proof.
  intros Hload. unfold SmallArtifactRef. rewrite Hload. cbv zeta.
  destruct (SmallArtifactRef_artifactUrl env objRef
              (awr_artInfo (SmallArtifactRef_query env objRef)));
    reflexivity.
Qed.

(** The weave chip never fails in the formatter: its reference is of a
    recognized variant. *)
Lemma SmallWeaveRef_unfold (objRef : WeaveObjectRef)
  (wfTable : option WFDBTableType) (iconOnly : bool) (rootType : WeaveType) :
  SmallWeaveRef_rootType objRef (SmallWeaveRef_refTypeQuery env objRef)
  = Returns rootType ->
  exists versionIndex,
    SmallWeaveRef env objRef wfTable iconOnly
    = Returns
        (let Item :=
           SmallRefBox env (SmallWeaveRef_icon (getTypeName env rootType))
             (labelOf (WeaveObject objRef) versionIndex) iconOnly in
         if loading (SmallWeaveRef_refTypeQuery env objRef) then Item
         else Link "secondary" [("width", "100%")]
                (To (refUIUrl env (getTypeName env rootType) objRef wfTable))
                [Item]).
Proof.
  intros Hroot. unfold SmallWeaveRef.
  destruct (SmallWeaveRef_keys objRef) as [objVersionKey opVersionKey].
  exists (SmallWeaveRef_versionIndex (useObjectVersion env objVersionKey)
            (useOpVersion env opVersionKey)).
  rewrite Hroot. cbn [bind]. unfold labelOf.
  rewrite (objectRefDisplayName_recognized (WeaveObject objRef)) by reflexivity.
  cbn [bind label].
  destruct (loading (SmallWeaveRef_refTypeQuery env objRef)); reflexivity.
Qed.

Lemma SmallWeaveRef_rootType_pending (objRef : WeaveObjectRef) :
  loading (SmallWeaveRef_refTypeQuery env objRef) = true ->
  SmallWeaveRef_rootType objRef (SmallWeaveRef_refTypeQuery env objRef)
  = Returns (if wo_weaveKind objRef =? "op" then TypeObj "OpDef" None
             else TypeName "unknown").
Proof.
  intros Hload. unfold SmallWeaveRef_rootType. rewrite Hload. cbn.
  destruct (wo_weaveKind objRef =? "op"); reflexivity.
Qed.

(** C6, as amended: while its lookup is pending, the artifact chip is the
    loading placeholder, the box with the loading icon and the text
    [Loading...], and the weave chip is its ordinary box, with the icon of
    the type not yet resolved and the label of the reference; neither
    contains a hyperlink, [cursor] styling or a tooltip. *)
Theorem pending_chips :
  (forall objRef : WandbArtifactRef,
     awr_loading (SmallArtifactRef_query env objRef) = true ->
     SmallArtifactRef env objRef
     = SmallRefBox env IconNames.Loading "Loading..." false
     /\ inert (SmallArtifactRef env objRef) = true)
  /\ (forall (objRef : WeaveObjectRef) (wfTable : option WFDBTableType)
        (iconOnly : bool),
        loading (SmallWeaveRef_refTypeQuery env objRef) = true ->
        exists (versionIndex : option Z) (e : Element),
          SmallWeaveRef env objRef wfTable iconOnly = Returns e
          /\ e = SmallRefBox env
                   (SmallWeaveRef_icon
                      (getTypeName env
                         (if wo_weaveKind objRef =? "op"
                          then TypeObj "OpDef" None
                          else TypeName "unknown")))
                   (labelOf (WeaveObject objRef) versionIndex) iconOnly
          /\ inert e = true).
Proof.
  split.
  - intros objRef Hload. unfold SmallArtifactRef. rewrite Hload.
    split; reflexivity.
  - intros objRef wfTable iconOnly Hload.
    destruct (SmallWeaveRef_unfold objRef wfTable iconOnly _
                (SmallWeaveRef_rootType_pending objRef Hload))
      as [versionIndex H].
    rewrite Hload in H. cbv zeta in H.
    exists versionIndex. eexists. split; [exact H|].
    split; [reflexivity | apply SmallRefBox_inert].
Qed.

(** C7: after loading, when the lookup of the page of an artifact gives no
    address, the chip is not a hyperlink, its cursor is [not-allowed] and
    its tooltip says that no link was detected. *)
Theorem artifact_chip_without_url (objRef : WandbArtifactRef) :
  awr_loading (SmallArtifactRef_query env objRef) = false ->
  truthy (SmallArtifactRef_artifactUrl env objRef
            (awr_artInfo (SmallArtifactRef_query env objRef))) = false ->
  containsLink (SmallArtifactRef env objRef) = false
  /\ cursorOf (SmallArtifactRef env objRef) = Some "not-allowed"
  /\ titleOf (SmallArtifactRef env objRef)
     = Some ("No link detected for this wandb artifact reference: "
             ++ wa_artifactPath objRef)
  /\ shownIcons (SmallArtifactRef env objRef) = [IconNames.Registries].
Proof.
  intros Hload Hurl. rewrite (SmallArtifactRef_settled _ Hload).
  destruct (SmallArtifactRef_artifactUrl env objRef
              (awr_artInfo (SmallArtifactRef_query env objRef)))
    as [href|]; cbn [truthy] in Hurl; [rewrite Hurl|];
    unfold SmallArtifactRef_Content; cbn [truthy]; rewrite ?Hurl;
    repeat split; reflexivity.
Qed.

(** With an address the chip is a hyperlink to it. *)
Lemma artifact_chip_with_url (objRef : WandbArtifactRef) (href : string) :
  awr_loading (SmallArtifactRef_query env objRef) = false ->
  SmallArtifactRef_artifactUrl env objRef
    (awr_artInfo (SmallArtifactRef_query env objRef)) = Some href ->
  href <> "" ->
  SmallArtifactRef env objRef
  = Link "secondary" [("width", "100%"); ("height", "100%")] (Href href)
      [SmallArtifactRef_Content env objRef (Some href)]
  /\ cursorOf (SmallArtifactRef_Content env objRef (Some href))
     = Some "pointer".
Proof.
  intros Hload Hurl Hne. rewrite (SmallArtifactRef_settled _ Hload), Hurl.
  apply truthy_some in Hne. cbn [truthy] in Hne.
  unfold SmallArtifactRef_Content. cbn [truthy]. rewrite Hne.
  split; reflexivity.
Qed.

(** C8: on a reference of neither variant the chip is the error message,
    and rendering it throws nothing. *)
Theorem unrecognized_chip (objRef : ObjectRef)
  (wfTable : option WFDBTableType) (iconOnly : bool) :
  isWandbArtifactRef objRef = false ->
  isWeaveObjectRef objRef = false ->
  SmallRef env objRef wfTable iconOnly
  = Returns (Div [Text "[Error: non wandb ref]"]).
Proof.
  destruct objRef as [r | r | scheme]; cbn; intros Ha Hw; try discriminate.
  reflexivity.
Qed.

(** C9: the icon of the weave chip is looked up from the name of the root
    type: the table icon for [Dataset], the model icon for [Model], the list
    icon for [List], the program-code icon for [OpDef], and the cube
    container for every other name. *)
Theorem weave_chip_icon (objRef : WeaveObjectRef)
  (wfTable : option WFDBTableType) (iconOnly : bool) (rootType : WeaveType) :
  SmallWeaveRef_rootType objRef (SmallWeaveRef_refTypeQuery env objRef)
  = Returns rootType ->
  exists e,
    SmallWeaveRef env objRef wfTable iconOnly = Returns e
    /\ (getTypeName env rootType = "Dataset" ->
        shownIcons e = [IconNames.Table])
    /\ (getTypeName env rootType = "Model" ->
        shownIcons e = [IconNames.Model])
    /\ (getTypeName env rootType = "List" ->
        shownIcons e = [IconNames.List])
    /\ (getTypeName env rootType = "OpDef" ->
        shownIcons e = [IconNames.JobProgramCode])
    /\ (getTypeName env rootType <> "Dataset" ->
        getTypeName env rootType <> "Model" ->
        getTypeName env rootType <> "List" ->
        getTypeName env rootType <> "OpDef" ->
        shownIcons e = [IconNames.CubeContainer]).
Proof.
  intros Hroot.
  destruct (SmallWeaveRef_unfold objRef wfTable iconOnly rootType Hroot)
    as [versionIndex H].
  eexists. split; [exact H|]. cbv zeta.
  assert (Hicons :
    forall b : bool,
      shownIcons
        (if b
         then SmallRefBox env (SmallWeaveRef_icon (getTypeName env rootType))
                (labelOf (WeaveObject objRef) versionIndex) iconOnly
         else Link "secondary" [("width", "100%")]
                (To (refUIUrl env (getTypeName env rootType) objRef wfTable))
                [SmallRefBox env
                   (SmallWeaveRef_icon (getTypeName env rootType))
                   (labelOf (WeaveObject objRef) versionIndex) iconOnly])
      = [SmallWeaveRef_icon (getTypeName env rootType)]).
  { intros [|]; cbn [shownIcons flat_map]; rewrite SmallRefBox_icons;
      reflexivity. }
  rewrite Hicons. unfold SmallWeaveRef_icon.
  repeat split.
  - intros ->. reflexivity.
  - intros ->. reflexivity.
  - intros ->. reflexivity.
  - intros ->. reflexivity.
  - intros H1 H2 H3 H4.
    apply String.eqb_neq in H1, H2, H3, H4. rewrite H1, H2, H3, H4.
    reflexivity.
Qed.

(** C10: after loading, the text of the artifact chip is the name of the
    artifact, a colon and the whole version string. *)
Theorem artifact_chip_text (objRef : WandbArtifactRef) :
  awr_loading (SmallArtifactRef_query env objRef) = false ->
  shownText (SmallArtifactRef env objRef)
  = [wa_artifactName objRef ++ ":" ++ wa_artifactVersion objRef].
Proof.
  intros Hload. rewrite (SmallArtifactRef_settled _ Hload).
  destruct (SmallArtifactRef_artifactUrl env objRef
              (awr_artInfo (SmallArtifactRef_query env objRef)))
    as [href|]; [destruct (negb (href =? "")) eqn:E|];
    unfold SmallArtifactRef_Content; cbn [truthy]; rewrite ?E;
    reflexivity.
Qed.

End Chips.

(** The claim as first stated fails on the weave chip: with every lookup
    pending it shows the cube-container icon and the label of the
    reference, not the loading placeholder. *)
Lemma pending_weave_chip_counterexample :
  loading (useObjectVersion pendingEnv (fst (SmallWeaveRef_keys modelObject)))
  = true
  /\ loading (useOpVersion pendingEnv (snd (SmallWeaveRef_keys modelObject)))
     = true
  /\ loading (SmallWeaveRef_refTypeQuery pendingEnv modelObject) = true
  /\ SmallWeaveRef pendingEnv modelObject None false
     = Returns
         (SmallRefBox pendingEnv IconNames.CubeContainer "model:abcdef" false)
  /\ SmallWeaveRef pendingEnv modelObject None false
     <> Returns
          (SmallRefBox pendingEnv IconNames.Loading "Loading..." false).
Proof. repeat split; try reflexivity. discriminate. Qed.

Lemma pending_chips_witness :
  (SmallArtifactRef pendingEnv modelArtifact
   = SmallRefBox pendingEnv IconNames.Loading "Loading..." false
   /\ inert (SmallArtifactRef pendingEnv modelArtifact) = true)
  /\ exists (versionIndex : option Z) (e : Element),
       SmallWeaveRef pendingEnv modelObject None false = Returns e
       /\ e = SmallRefBox pendingEnv IconNames.CubeContainer
                (labelOf (WeaveObject modelObject) versionIndex) false
       /\ inert e = true.
Proof.
  split.
  - apply (proj1 (pending_chips pendingEnv) modelArtifact). reflexivity.
  - apply (proj2 (pending_chips pendingEnv) modelObject None false).
    reflexivity.
Defined.

Lemma artifact_chip_without_url_witness :
  containsLink (SmallArtifactRef settledEnv modelArtifact) = false
  /\ cursorOf (SmallArtifactRef settledEnv modelArtifact) = Some "not-allowed"
  /\ titleOf (SmallArtifactRef settledEnv modelArtifact)
     = Some "No link detected for this wandb artifact reference: obj"
  /\ shownIcons (SmallArtifactRef settledEnv modelArtifact)
     = [IconNames.Registries].
Proof.
  apply (artifact_chip_without_url settledEnv modelArtifact); reflexivity.
Defined.

Lemma unrecognized_chip_witness :
  SmallRef settledEnv (UnrecognizedRef "local-artifact") None false
  = Returns (Div [Text "[Error: non wandb ref]"]).
Proof.
  apply (unrecognized_chip settledEnv (UnrecognizedRef "local-artifact"));
    reflexivity.
Defined.

Lemma weave_chip_icon_witness :
  exists e,
    SmallWeaveRef settledEnv modelObject None false = Returns e
    /\ shownIcons e = [IconNames.Table].
Proof.
  destruct (weave_chip_icon settledEnv modelObject None false
              (TypeObj "Dataset" (Some (TypeObj "Object" None))) eq_refl)
    as (e & He & Hdataset & _).
  exists e. split; [exact He | apply Hdataset; reflexivity].
Defined.

Lemma artifact_chip_text_witness :
  shownText (SmallArtifactRef settledEnv modelArtifact) = ["model:abcdef1234"].
Proof.
  apply (artifact_chip_text settledEnv modelArtifact). reflexivity.
Defined.

(** ** The chips on the sample references *)

Example settled_weave_chip :
  SmallWeaveRef settledEnv modelObject None false
  = Returns
      (Link "secondary" [("width", "100%")] (To "/Dataset/model")
         [SmallRefBox settledEnv IconNames.Table "model:v3" false]).
Proof. reflexivity. Qed.

Example op_chip_pending :
  SmallWeaveRef pendingEnv
    (mkWeaveObjectRef "acme" "demo" "op" "predict" "0123456789" None)
    None true
  = Returns
      (SmallRefBox pendingEnv IconNames.JobProgramCode "predict:012345" true).
Proof. reflexivity. Qed.

Example empty_type_answer_throws :
  exists message,
    SmallWeaveRef
      {| MOON_300 := MOON_300 settledEnv;
         hexToRGB := hexToRGB settledEnv;
         fetchArtifactRefPageUrl := fetchArtifactRefPageUrl settledEnv;
         getTypeName := getTypeName settledEnv;
         refUri := refUri settledEnv;
         useArtifactWeaveReference := useArtifactWeaveReference settledEnv;
         useObjectVersion := useObjectVersion settledEnv;
         useOpVersion := useOpVersion settledEnv;
         useRefsType := fun _ => mkLoadable false (Some []);
         refUIUrl := refUIUrl settledEnv |}
      modelObject None false
    = Throws (TypeError message).
Proof. eexists. reflexivity. Qed.

Example getRootType_follows_bases :
  getRootType
    (TypeObj "MyDataset"
       (Some (TypeObj "Dataset" (Some (TypeObj "Object" None)))))
  = TypeObj "Dataset" (Some (TypeObj "Object" None)).
Proof. reflexivity. Qed.

Example label_examples :
  labelOf
    (WandbArtifact
       (mkWandbArtifactRef "acme" "demo" "model" "abcdef1234" "x"
          (Some "a/b/c/d")))
    (Some 12%Z)
  = "model:v12/x#b/d"
  /\ labelOf
       (WandbArtifact
          (mkWandbArtifactRef "acme" "demo" "model" "abc" "obj" (Some "a")))
       None
     = "model:abc#"
  /\ labelOf
       (WeaveObject
          (mkWeaveObjectRef "acme" "demo" "op" "f" "abcdef1234" (Some "")))
       (Some (-1)%Z)
     = "f:v-1".
Proof. repeat split. Qed.


(** * Further properties *)

(** ** The root of a type *)

(** Induction along the base types. *)
Lemma WeaveType_base_ind (P : WeaveType -> Prop) :
  (forall name, P (TypeName name)) ->
  (forall type, P (TypeObj type None)) ->
  (forall type base, P base -> P (TypeObj type (Some base))) ->
  forall t, P t.
Proof.
  intros Hname Hnone Hsome. fix IH 1.
  intros [name | type [base|]];
    [apply Hname | apply Hsome, IH | apply Hnone].
Qed.

Lemma getRootType_step (type : string) (base : WeaveType) :
  getRootType (TypeObj type (Some base))
  = if isRootType (TypeObj type (Some base))
    then TypeObj type (Some base)
    else getRootType base.
Proof.
  cbn [getRootType isRootType].
  destruct (typeProp base) as [name|]; [destruct (name =? "Object")|];
    reflexivity.
Qed.

(** X1: the root of a root is that root; [getRootType] is idempotent. *)
Theorem getRootType_idempotent (t : WeaveType) :
  getRootType (getRootType t) = getRootType t.
Proof.
  induction t as [name | type | type base IH] using WeaveType_base_ind;
    try reflexivity.
  rewrite getRootType_step.
  destruct (isRootType (TypeObj type (Some base))) eqn:E; [|exact IH].
  rewrite getRootType_step, E. reflexivity.
Qed.

(** X2: [getRootType t] is the first type among [t], its base type, the
    base type of that, ..., that has no base type or whose base type is an
    object named [Object]. *)
Theorem getRootType_first_root (t : WeaveType) :
  find isRootType (baseChain t) = Some (getRootType t).
Proof.
  induction t as [name | type | type base IH] using WeaveType_base_ind;
    try reflexivity.
  rewrite getRootType_step. cbn [baseChain find].
  destruct (isRootType (TypeObj type (Some base))); [reflexivity | exact IH].
Qed.

(** ** The loop of the formatter *)

(** X3: started as the source starts it, the loop collects half of the
    parts, rounded down, and its element [k] is the part at [2k+1]. *)
Theorem pushEveryOther_positions (parts : list string) :
  length (pushEveryOther parts 1 []) = length parts / 2
  /\ forall k,
       nth_error (pushEveryOther parts 1 []) k = nth_error parts (2 * k + 1).
Proof.
  rewrite pushEveryOther_from_1. split.
  - apply oddIndexed_length.
  - intros k. apply oddIndexed_nth_error.
Qed.

(** ** More on labels *)

Lemma firstChars_short (n : nat) :
  forall s, String.length s <= n -> firstChars n s = s.
Proof.
  induction n as [|n IH]; intros [|c s]; simpl; intros H;
    try reflexivity; try lia.
  rewrite IH by lia. reflexivity.
Qed.

(** X4: the formatter returns a label exactly on the references of a
    recognized variant. *)
Theorem label_returned_iff_recognized (objRef : ObjectRef)
  (versionIndex : option Z) :
  (exists displayName,
     objectRefDisplayName objRef versionIndex = Returns displayName)
  <-> isWandbArtifactRef objRef || isWeaveObjectRef objRef = true.
Proof.
  split.
  - intros [displayName H].
    destruct objRef as [r | r | scheme]; [reflexivity | reflexivity |].
    cbn in H. discriminate.
  - intros Hrec. eexists. apply objectRefDisplayName_recognized, Hrec.
Qed.

(** X5: an empty extra path counts as none. *)
Theorem empty_extra_as_absent (objRef : ObjectRef) (versionIndex : option Z) :
  objectRefDisplayName (withExtra (Some "") objRef) versionIndex
  = objectRefDisplayName (withExtra None objRef) versionIndex.
Proof.
  destruct objRef as [r | r | scheme]; [| |reflexivity];
    rewrite !objectRefDisplayName_recognized by reflexivity; reflexivity.
Qed.

(** X6: an extra path of one segment, not empty and free of slashes, adds
    to the label of an artifact reference the hash sign and nothing else. *)
Theorem one_segment_extra (r : WandbArtifactRef) (versionIndex : option Z)
  (extra : string) :
  wa_artifactRefExtra r = Some extra ->
  extra <> "" ->
  occurs "/" extra = false ->
  objectRefDisplayName (WandbArtifact r) versionIndex
  = Returns
      {| label :=
           labelOf (withExtra None (WandbArtifact r)) versionIndex ++ "#" |}.
Proof.
  intros Hextra Hne Hfree. unfold labelOf.
  rewrite !objectRefDisplayName_recognized by reflexivity.
  cbn [label]. unfold labelSuffix, extraPart.
  cbn [refExtra withExtra wa_artifactRefExtra refName refVersion pathPart
       wa_artifactName wa_artifactVersion wa_artifactPath].
  rewrite Hextra. destruct extra as [|c e]; [congruence|].
  unfold extraSuffix. rewrite (split_no_sep _ _ Hfree).
  cbn [oddIndexed join String.concat].
  rewrite append_empty_r, !append_assoc3. reflexivity.
Qed.

Lemma one_segment_extra_witness :
  objectRefDisplayName
    (WandbArtifact
       (mkWandbArtifactRef "acme" "demo" "model" "abcdef1234" "obj"
          (Some "rows")))
    (Some 2%Z)
  = Returns {| label := "model:v2#" |}.
Proof.
  apply (one_segment_extra
           (mkWandbArtifactRef "acme" "demo" "model" "abcdef1234" "obj"
              (Some "rows"))
           (Some 2%Z) "rows"); [reflexivity | discriminate | reflexivity].
Defined.

(** X7: without a version index, a version string of at most six characters
    is shown whole. *)
Theorem short_version_whole (objRef : ObjectRef) (version : string) :
  isWandbArtifactRef objRef || isWeaveObjectRef objRef = true ->
  String.length version <= 6 ->
  objectRefDisplayName (withVersion version objRef) None
  = Returns
      {| label := refName objRef ++ ":" ++ version ++ labelSuffix objRef |}.
Proof.
  intros Hrec Hlen.
  rewrite objectRefDisplayName_recognized
    by (rewrite recognized_withVersion; exact Hrec).
  rewrite refName_withVersion, labelSuffix_withVersion,
    (refVersion_withVersion _ _ Hrec).
  cbn [versionPart]. rewrite (firstChars_short 6 version Hlen). reflexivity.
Qed.

Lemma short_version_whole_witness :
  objectRefDisplayName
    (WeaveObject
       (mkWeaveObjectRef "acme" "demo" "object" "model" "v12" (Some "rows/0")))
    None
  = Returns {| label := "model:v12/rows/0" |}.
Proof.
  apply (short_version_whole
           (WeaveObject
              (mkWeaveObjectRef "acme" "demo" "object" "model" "abcdef1234"
                 (Some "rows/0")))
           "v12"); [reflexivity | simpl; lia].
Defined.

(** X8: the label shows nothing of the entity, of the project or of the
    kind: references of one variant with the same name, version, path and
    extra path have the same label. *)
Theorem label_ignores_entity_project_kind (versionIndex : option Z) :
  (forall r r' : WandbArtifactRef,
     wa_artifactName r = wa_artifactName r' ->
     wa_artifactVersion r = wa_artifactVersion r' ->
     wa_artifactPath r = wa_artifactPath r' ->
     wa_artifactRefExtra r = wa_artifactRefExtra r' ->
     objectRefDisplayName (WandbArtifact r) versionIndex
     = objectRefDisplayName (WandbArtifact r') versionIndex)
  /\ (forall r r' : WeaveObjectRef,
        wo_artifactName r = wo_artifactName r' ->
        wo_artifactVersion r = wo_artifactVersion r' ->
        wo_artifactRefExtra r = wo_artifactRefExtra r' ->
        objectRefDisplayName (WeaveObject r) versionIndex
        = objectRefDisplayName (WeaveObject r') versionIndex).
Proof.
  split.
  - intros r r' Hn Hv Hp He.
    rewrite !objectRefDisplayName_recognized by reflexivity.
    unfold labelSuffix, extraPart.
    cbn [refName refVersion refExtra pathPart extraSuffix].
    rewrite Hn, Hv, Hp, He. reflexivity.
  - intros r r' Hn Hv He.
    rewrite !objectRefDisplayName_recognized by reflexivity.
    unfold labelSuffix, extraPart.
    cbn [refName refVersion refExtra pathPart extraSuffix].
    rewrite Hn, Hv, He. reflexivity.
Qed.

(** ** More on the chips *)

Section MoreChips.

Variable env : Imports.

Lemma SmallRefBox_linkTargets (iconName : IconName) (text : string)
  (iconOnly : bool) :
  linkTargets (SmallRefBox env iconName text iconOnly) = [].
Proof. destruct iconOnly; reflexivity. Qed.

Lemma SmallArtifactRef_Content_linkTargets (objRef : WandbArtifactRef)
  (artifactUrl : option string) :
  linkTargets (SmallArtifactRef_Content env objRef artifactUrl) = [].
Proof.
  unfold SmallArtifactRef_Content. destruct (truthy artifactUrl); reflexivity.
Qed.

(** X9: the artifact chip leads to the page of the artifact, and nowhere
    else, when loading is over and the lookup of the page gave a non-empty
    address; otherwise it leads nowhere. Without [artInfo] there is no
    address. *)
Theorem artifact_chip_link_targets (objRef : WandbArtifactRef) :
  linkTargets (SmallArtifactRef env objRef)
  = match awr_artInfo (SmallArtifactRef_query env objRef) with
    | Some _ =>
        match SmallArtifactRef_artifactUrl env objRef
                (awr_artInfo (SmallArtifactRef_query env objRef)) with
        | Some href =>
            if negb (awr_loading (SmallArtifactRef_query env objRef))
               && negb (href =? "")
            then [Href href]
            else []
        | None => []
        end
    | None => []
    end.
Proof.
  destruct (awr_loading (SmallArtifactRef_query env objRef)) eqn:Hload.
  - unfold SmallArtifactRef. rewrite Hload, SmallRefBox_linkTargets.
    destruct (awr_artInfo (SmallArtifactRef_query env objRef));
      [destruct (SmallArtifactRef_artifactUrl env objRef _)|]; reflexivity.
  - rewrite (SmallArtifactRef_settled env objRef Hload).
    destruct (awr_artInfo (SmallArtifactRef_query env objRef)) as [artInfo|];
      [|cbn [SmallArtifactRef_artifactUrl];
        apply SmallArtifactRef_Content_linkTargets].
    destruct (SmallArtifactRef_artifactUrl env objRef (Some artInfo))
      as [href|]; [|apply SmallArtifactRef_Content_linkTargets].
    cbn [negb andb]. destruct (negb (href =? "")).
    + cbn [linkTargets flat_map].
      rewrite SmallArtifactRef_Content_linkTargets. reflexivity.
    + apply SmallArtifactRef_Content_linkTargets.
Qed.

(** X10: with a non-empty address after loading, the artifact chip is one
    hyperlink around its content; the content has the [pointer] cursor and
    the artifact path as tooltip, and shows the registries icon followed by
    the open-in-new-tab icon. *)
Theorem artifact_chip_linked (objRef : WandbArtifactRef) (href : string) :
  awr_loading (SmallArtifactRef_query env objRef) = false ->
  SmallArtifactRef_artifactUrl env objRef
    (awr_artInfo (SmallArtifactRef_query env objRef)) = Some href ->
  href <> "" ->
  exists content,
    SmallArtifactRef env objRef
    = Link "secondary" [("width", "100%"); ("height", "100%")] (Href href)
        [content]
    /\ containsLink content = false
    /\ cursorOf content = Some "pointer"
    /\ titleOf content = Some (wa_artifactPath objRef)
    /\ shownIcons content = [IconNames.Registries; IconNames.OpenNewTab].
Proof.
  intros Hload Hurl Hne.
  exists (SmallArtifactRef_Content env objRef (Some href)).
  rewrite (SmallArtifactRef_settled env objRef Hload), Hurl.
  apply truthy_some in Hne. cbn [truthy] in Hne.
  unfold SmallArtifactRef_Content. cbn [truthy]. rewrite Hne.
  repeat split; reflexivity.
Qed.

(** X11: on an artifact reference [SmallRef] throws nothing and ignores
    both [wfTable] and [iconOnly]: the text is there even for an icon-only
    chip, [Loading...] while loading and the name with the whole version
    afterwards. *)
Theorem artifact_chip_ignores_iconOnly (objRef : WandbArtifactRef) :
  exists e,
    (forall wfTable iconOnly,
       SmallRef env (WandbArtifact objRef) wfTable iconOnly = Returns e)
    /\ shownText e
       = [if awr_loading (SmallArtifactRef_query env objRef)
          then "Loading..."
          else wa_artifactName objRef ++ ":" ++ wa_artifactVersion objRef].
Proof.
  exists (SmallArtifactRef env objRef). split; [reflexivity|].
  destruct (awr_loading (SmallArtifactRef_query env objRef)) eqn:Hload.
  - unfold SmallArtifactRef. rewrite Hload. reflexivity.
  - rewrite (SmallArtifactRef_settled env objRef Hload).
    destruct (SmallArtifactRef_artifactUrl env objRef
                (awr_artInfo (SmallArtifactRef_query env objRef)))
      as [href|]; [destruct (negb (href =? "")) eqn:E|];
      unfold SmallArtifactRef_Content; cbn [truthy]; rewrite ?E;
      reflexivity.
Qed.

(** The root type is there unless the lookup of the type has answered with
    an empty array. *)
Lemma SmallWeaveRef_rootType_cases (objRef : WeaveObjectRef)
  (refTypeQuery : Loadable (list WeaveType)) :
  (loading refTypeQuery = false /\ result refTypeQuery = Some []
   /\ exists e, SmallWeaveRef_rootType objRef refTypeQuery = Throws e)
  \/ ((loading refTypeQuery = true \/ result refTypeQuery <> Some [])
      /\ exists rootType,
           SmallWeaveRef_rootType objRef refTypeQuery = Returns rootType).
Proof.
  unfold SmallWeaveRef_rootType.
  destruct (loading refTypeQuery) eqn:Hload.
  - right. split; [left; reflexivity|]. cbn [bind].
    destruct (_ && _); eexists; reflexivity.
  - destruct (result refTypeQuery) as [[|t rest]|] eqn:Hres.
    + left. repeat split. eexists. reflexivity.
    + right. split; [right; discriminate|]. cbn [bind].
      destruct (_ && _); eexists; reflexivity.
    + right. split; [right; discriminate|]. cbn [bind].
      destruct (_ && _); eexists; reflexivity.
Qed.

(** The weave chip, given its root type. *)
Lemma SmallWeaveRef_with_rootType (objRef : WeaveObjectRef)
  (wfTable : option WFDBTableType) (iconOnly : bool) (rootType : WeaveType) :
  SmallWeaveRef_rootType objRef (SmallWeaveRef_refTypeQuery env objRef)
  = Returns rootType ->
  SmallWeaveRef env objRef wfTable iconOnly
  = Returns
      (if loading (SmallWeaveRef_refTypeQuery env objRef)
       then SmallRefBox env (SmallWeaveRef_icon (getTypeName env rootType))
              (labelOf (WeaveObject objRef)
                 (SmallWeaveRef_versionIndex (objectVersionOf env objRef)
                    (opVersionOf env objRef)))
              iconOnly
       else Link "secondary" [("width", "100%")]
              (To (refUIUrl env (getTypeName env rootType) objRef wfTable))
              [SmallRefBox env (SmallWeaveRef_icon (getTypeName env rootType))
                 (labelOf (WeaveObject objRef)
                    (SmallWeaveRef_versionIndex (objectVersionOf env objRef)
                       (opVersionOf env objRef)))
                 iconOnly]).
Proof.
  intros Hroot. unfold SmallWeaveRef, objectVersionOf, opVersionOf.
  destruct (SmallWeaveRef_keys objRef) as [objVersionKey opVersionKey].
  cbn [fst snd]. rewrite Hroot. cbn [bind]. unfold labelOf.
  rewrite (objectRefDisplayName_recognized (WeaveObject objRef)) by reflexivity.
  cbn [bind label].
  destruct (loading (SmallWeaveRef_refTypeQuery env objRef)); reflexivity.
Qed.

Lemma SmallWeaveRef_without_rootType (objRef : WeaveObjectRef)
  (wfTable : option WFDBTableType) (iconOnly : bool) (e : Exception) :
  SmallWeaveRef_rootType objRef (SmallWeaveRef_refTypeQuery env objRef)
  = Throws e ->
  SmallWeaveRef env objRef wfTable iconOnly = Throws e.
Proof.
  intros Hroot. unfold SmallWeaveRef.
  destruct (SmallWeaveRef_keys objRef) as [objVersionKey opVersionKey].
  rewrite Hroot. reflexivity.
Qed.

Lemma SmallWeaveRef_returns_inv (objRef : WeaveObjectRef)
  (wfTable : option WFDBTableType) (iconOnly : bool) (e : Element) :
  SmallWeaveRef env objRef wfTable iconOnly = Returns e ->
  exists rootType,
    SmallWeaveRef_rootType objRef (SmallWeaveRef_refTypeQuery env objRef)
    = Returns rootType.
Proof.
  intros H.
  destruct (SmallWeaveRef_rootType objRef
              (SmallWeaveRef_refTypeQuery env objRef)) as [rootType|ex] eqn:E.
  - exists rootType. reflexivity.
  - rewrite (SmallWeaveRef_without_rootType _ wfTable iconOnly _ E) in H.
    discriminate.
Qed.

(** X12: the weave chip throws exactly when the lookup of the type is over
    and has answered with an empty array; the kind of the reference and the
    version lookups do not matter. *)
Theorem weave_chip_throws_iff (objRef : WeaveObjectRef)
  (wfTable : option WFDBTableType) (iconOnly : bool) :
  (exists ex, SmallWeaveRef env objRef wfTable iconOnly = Throws ex)
  <-> loading (SmallWeaveRef_refTypeQuery env objRef) = false
      /\ result (SmallWeaveRef_refTypeQuery env objRef) = Some [].
Proof.
  destruct (SmallWeaveRef_rootType_cases objRef
              (SmallWeaveRef_refTypeQuery env objRef))
    as [(Hload & Hres & ex & Hroot) | (Hok & rootType & Hroot)].
  - split; [intros _; split; assumption|].
    intros _. exists ex. apply SmallWeaveRef_without_rootType, Hroot.
  - rewrite (SmallWeaveRef_with_rootType _ wfTable iconOnly _ Hroot).
    split.
    + intros [ex H]. discriminate.
    + intros [Hload Hres]. destruct Hok as [H | H]; congruence.
Qed.

(** X13: a weave chip that renders leads nowhere while the lookup of the
    type is pending, and afterwards to the page that [refUIUrl] gives for
    the name of the root type, the reference and [wfTable], whatever the
    state of the version lookups. *)
Theorem weave_chip_link_targets (objRef : WeaveObjectRef)
  (wfTable : option WFDBTableType) (iconOnly : bool) (rootType : WeaveType) :
  SmallWeaveRef_rootType objRef (SmallWeaveRef_refTypeQuery env objRef)
  = Returns rootType ->
  exists e,
    SmallWeaveRef env objRef wfTable iconOnly = Returns e
    /\ linkTargets e
       = if loading (SmallWeaveRef_refTypeQuery env objRef) then []
         else [To (refUIUrl env (getTypeName env rootType) objRef wfTable)].
Proof.
  intros Hroot. eexists.
  split; [apply SmallWeaveRef_with_rootType, Hroot|].
  destruct (loading (SmallWeaveRef_refTypeQuery env objRef));
    cbn [linkTargets flat_map]; rewrite SmallRefBox_linkTargets; reflexivity.
Qed.

Lemma SmallWeaveRef_rootType_op (objRef : WeaveObjectRef)
  (refTypeQuery : Loadable (list WeaveType)) (rootType : WeaveType) :
  wo_weaveKind objRef = "op" ->
  SmallWeaveRef_rootType objRef refTypeQuery = Returns rootType ->
  rootType = TypeObj "OpDef" None.
Proof.
  intros Hop. unfold SmallWeaveRef_rootType. rewrite Hop.
  destruct (loading refTypeQuery);
    [|destruct (result refTypeQuery) as [[|t rest]|]]; cbn;
    intros H; congruence.
Qed.

(** X14: for a reference to an operation the type that the lookup answers
    is set aside: the chip that renders shows the program-code icon alone,
    given that the name of the type [{type: 'OpDef'}] is [OpDef]. *)
Theorem op_chip_icon (objRef : WeaveObjectRef)
  (wfTable : option WFDBTableType) (iconOnly : bool) (e : Element) :
  wo_weaveKind objRef = "op" ->
  getTypeName env (TypeObj "OpDef" None) = "OpDef" ->
  SmallWeaveRef env objRef wfTable iconOnly = Returns e ->
  shownIcons e = [IconNames.JobProgramCode].
Proof.
  intros Hop Hname H.
  destruct (SmallWeaveRef_returns_inv _ _ _ _ H) as [rootType Hroot].
  rewrite (SmallWeaveRef_with_rootType _ wfTable iconOnly _ Hroot) in H.
  rewrite (SmallWeaveRef_rootType_op _ _ _ Hop Hroot), Hname in H.
  injection H as <-.
  destruct (loading (SmallWeaveRef_refTypeQuery env objRef));
    cbn [shownIcons flat_map]; rewrite SmallRefBox_icons; reflexivity.
Qed.

(** X15: an icon-only weave chip that renders has one icon and no text. *)
Theorem icon_only_weave_chip (objRef : WeaveObjectRef)
  (wfTable : option WFDBTableType) (e : Element) :
  SmallWeaveRef env objRef wfTable true = Returns e ->
  shownText e = [] /\ length (shownIcons e) = 1.
Proof.
  intros H.
  destruct (SmallWeaveRef_returns_inv _ _ _ _ H) as [rootType Hroot].
  rewrite (SmallWeaveRef_with_rootType _ wfTable true _ Hroot) in H.
  injection H as <-.
  destruct (loading (SmallWeaveRef_refTypeQuery env objRef));
    split; reflexivity.
Qed.

(** X16: the text of a weave chip that renders with its text is the label
    of the reference, with the version index that the object-version lookup
    answered, else the one that the operation-version lookup answered, else
    with the first six characters of the version string. *)
Theorem weave_chip_text (objRef : WeaveObjectRef)
  (wfTable : option WFDBTableType) (e : Element) :
  SmallWeaveRef env objRef wfTable false = Returns e ->
  (forall v,
     result (objectVersionOf env objRef) = Some v ->
     shownText e
     = [wo_artifactName objRef ++ ":" ++ ("v" ++ numberToString (versionIndex v))
        ++ labelSuffix (WeaveObject objRef)])
  /\ (forall v,
        result (objectVersionOf env objRef) = None ->
        result (opVersionOf env objRef) = Some v ->
        shownText e
        = [wo_artifactName objRef ++ ":"
           ++ ("v" ++ numberToString (versionIndex v))
           ++ labelSuffix (WeaveObject objRef)])
  /\ (result (objectVersionOf env objRef) = None ->
      result (opVersionOf env objRef) = None ->
      shownText e
      = [wo_artifactName objRef ++ ":"
         ++ firstChars 6 (wo_artifactVersion objRef)
         ++ labelSuffix (WeaveObject objRef)]).
Proof.
  intros H.
  destruct (SmallWeaveRef_returns_inv _ _ _ _ H) as [rootType Hroot].
  rewrite (SmallWeaveRef_with_rootType _ wfTable false _ Hroot) in H.
  injection H as <-.
  assert (Htext :
    shownText
      (if loading (SmallWeaveRef_refTypeQuery env objRef)
       then SmallRefBox env (SmallWeaveRef_icon (getTypeName env rootType))
              (labelOf (WeaveObject objRef)
                 (SmallWeaveRef_versionIndex (objectVersionOf env objRef)
                    (opVersionOf env objRef)))
              false
       else Link "secondary" [("width", "100%")]
              (To (refUIUrl env (getTypeName env rootType) objRef wfTable))
              [SmallRefBox env (SmallWeaveRef_icon (getTypeName env rootType))
                 (labelOf (WeaveObject objRef)
                    (SmallWeaveRef_versionIndex (objectVersionOf env objRef)
                       (opVersionOf env objRef)))
                 false])
    = [labelOf (WeaveObject objRef)
         (SmallWeaveRef_versionIndex (objectVersionOf env objRef)
            (opVersionOf env objRef))])
    by (destruct (loading (SmallWeaveRef_refTypeQuery env objRef));
        reflexivity).
  rewrite Htext. unfold labelOf.
  rewrite (objectRefDisplayName_recognized (WeaveObject objRef)) by reflexivity.
  cbn [label refName refVersion]. unfold SmallWeaveRef_versionIndex.
  repeat split.
  - intros v Hov. rewrite Hov. reflexivity.
  - intros v Hov Hop. rewrite Hov, Hop. reflexivity.
  - intros Hov Hop. rewrite Hov, Hop. reflexivity.
Qed.

End MoreChips.

Lemma artifact_chip_linked_witness :
  exists content,
    SmallArtifactRef linkedEnv modelArtifact
    = Link "secondary" [("width", "100%"); ("height", "100%")]
        (Href "https://wandb.ai/acme/demo/artifacts/model/model/abcdef1234")
        [content]
    /\ containsLink content = false
    /\ cursorOf content = Some "pointer"
    /\ titleOf content = Some "obj"
    /\ shownIcons content = [IconNames.Registries; IconNames.OpenNewTab].
Proof.
  apply (artifact_chip_linked linkedEnv modelArtifact
           "https://wandb.ai/acme/demo/artifacts/model/model/abcdef1234");
    [reflexivity | reflexivity | discriminate].
Defined.

Lemma weave_chip_link_targets_witness :
  exists e,
    SmallWeaveRef linkedEnv modelObject (Some Object) false = Returns e
    /\ linkTargets e = [To "/Model/model"].
Proof.
  apply (weave_chip_link_targets linkedEnv modelObject (Some Object) false
           (TypeObj "Model" (Some (TypeObj "Object" None)))).
  reflexivity.
Defined.

Lemma op_chip_icon_witness :
  shownIcons
    (Link "secondary" [("width", "100%")] (To "/OpDef/predict")
       [SmallRefBox linkedEnv IconNames.JobProgramCode "predict:v7" false])
  = [IconNames.JobProgramCode].
Proof.
  apply (op_chip_icon linkedEnv predictOp None false
           (Link "secondary" [("width", "100%")] (To "/OpDef/predict")
              [SmallRefBox linkedEnv IconNames.JobProgramCode "predict:v7"
                 false]));
    reflexivity.
Defined.

Lemma icon_only_weave_chip_witness :
  shownText (SmallRefBox pendingEnv IconNames.CubeContainer "model:abcdef" true)
  = []
  /\ length
       (shownIcons
          (SmallRefBox pendingEnv IconNames.CubeContainer "model:abcdef" true))
     = 1.
Proof.
  apply (icon_only_weave_chip pendingEnv modelObject None
           (SmallRefBox pendingEnv IconNames.CubeContainer "model:abcdef" true)).
  reflexivity.
Defined.

Lemma weave_chip_text_witness :
  shownText
    (Link "secondary" [("width", "100%")] (To "/OpDef/predict")
       [SmallRefBox linkedEnv IconNames.JobProgramCode "predict:v7" false])
  = ["predict:v7"].
Proof.
  apply (proj1 (proj2
           (weave_chip_text linkedEnv predictOp None
              (Link "secondary" [("width", "100%")] (To "/OpDef/predict")
                 [SmallRefBox linkedEnv IconNames.JobProgramCode "predict:v7"
                    false])
              eq_refl))
           (mkVersionSchema 7));
    reflexivity.
Defined.

Example empty_answer_throws :
  exists ex, SmallWeaveRef emptyAnswerEnv predictOp None false = Throws ex.
Proof. eexists. reflexivity. Qed.
